(** * WorkoutTimer: the interval timer of [workout_timer_tsx.ts]

    The component keeps its whole state in [useState] cells.  Every user
    action and every interval callback is a pure update of those cells,
    followed by a re-render in which React runs the effects whose
    dependencies changed.  The development models one such round as
    [update]: the handler's writes, then the effects.

    All numbers the component ever stores are integers (constants, results
    of [parseInt], and sums and differences of those), so they are [Z]. *)

From Stdlib Require Import ZArith Bool List String Ascii Lia.
From Stdlib Require Import Decimal DecimalFacts DecimalString DecimalPos.
Import ListNotations.
Local Open Scope string_scope.
Local Open Scope Z_scope.

(** ** State: one field per [useState] cell of [WorkoutTimer] *)

Record State : Type := mkState {
  workTime : Z;
  restTime : Z;
  totalDuration : Z;
  prepareTime : Z;
  currentTime : Z;
  isWork : bool;
  isActive : bool;
  isPreparing : bool;
  prepTime : Z;
  sessionTime : Z;
  workColor : string;
  restColor : string;
  bgColor : string;
  textColor : string;
  showSettings : bool
}.

Module INITIAL_STATES.

Definition WORK_TIME : Z := 40.
Definition REST_TIME : Z := 20.
Definition TOTAL_DURATION : Z := 8.
Definition PREP_TIME : Z := 3.

Module COLORS.

Definition WORK : string := "#00FF00".
Definition REST : string := "#FF0000".
Definition BACKGROUND : string := "#000000".
Definition TEXT : string := "#FFFFFF".

End COLORS.

End INITIAL_STATES.

(** The values handed to [useState] on the first render. *)
Definition initialState : State :=
  {| workTime := INITIAL_STATES.WORK_TIME;
     restTime := INITIAL_STATES.REST_TIME;
     totalDuration := INITIAL_STATES.TOTAL_DURATION;
     prepareTime := INITIAL_STATES.PREP_TIME;
     currentTime := INITIAL_STATES.WORK_TIME;
     isWork := true;
     isActive := false;
     isPreparing := false;
     prepTime := INITIAL_STATES.PREP_TIME;
     sessionTime := 0;
     workColor := INITIAL_STATES.COLORS.WORK;
     restColor := INITIAL_STATES.COLORS.REST;
     bgColor := INITIAL_STATES.COLORS.BACKGROUND;
     textColor := INITIAL_STATES.COLORS.TEXT;
     showSettings := false |}.

(** ** The state setters returned by [useState] *)

Definition setWorkTime (v : Z) (s : State) : State :=
  mkState v (restTime s) (totalDuration s) (prepareTime s) (currentTime s)
    (isWork s) (isActive s) (isPreparing s) (prepTime s) (sessionTime s)
    (workColor s) (restColor s) (bgColor s) (textColor s) (showSettings s).

Definition setRestTime (v : Z) (s : State) : State :=
  mkState (workTime s) v (totalDuration s) (prepareTime s) (currentTime s)
    (isWork s) (isActive s) (isPreparing s) (prepTime s) (sessionTime s)
    (workColor s) (restColor s) (bgColor s) (textColor s) (showSettings s).

Definition setTotalDuration (v : Z) (s : State) : State :=
  mkState (workTime s) (restTime s) v (prepareTime s) (currentTime s)
    (isWork s) (isActive s) (isPreparing s) (prepTime s) (sessionTime s)
    (workColor s) (restColor s) (bgColor s) (textColor s) (showSettings s).

Definition setPrepareTime (v : Z) (s : State) : State :=
  mkState (workTime s) (restTime s) (totalDuration s) v (currentTime s)
    (isWork s) (isActive s) (isPreparing s) (prepTime s) (sessionTime s)
    (workColor s) (restColor s) (bgColor s) (textColor s) (showSettings s).

Definition setCurrentTime (v : Z) (s : State) : State :=
  mkState (workTime s) (restTime s) (totalDuration s) (prepareTime s) v
    (isWork s) (isActive s) (isPreparing s) (prepTime s) (sessionTime s)
    (workColor s) (restColor s) (bgColor s) (textColor s) (showSettings s).

Definition setIsWork (b : bool) (s : State) : State :=
  mkState (workTime s) (restTime s) (totalDuration s) (prepareTime s)
    (currentTime s) b (isActive s) (isPreparing s) (prepTime s)
    (sessionTime s) (workColor s) (restColor s) (bgColor s) (textColor s)
    (showSettings s).

Definition setIsActive (b : bool) (s : State) : State :=
  mkState (workTime s) (restTime s) (totalDuration s) (prepareTime s)
    (currentTime s) (isWork s) b (isPreparing s) (prepTime s)
    (sessionTime s) (workColor s) (restColor s) (bgColor s) (textColor s)
    (showSettings s).

Definition setIsPreparing (b : bool) (s : State) : State :=
  mkState (workTime s) (restTime s) (totalDuration s) (prepareTime s)
    (currentTime s) (isWork s) (isActive s) b (prepTime s)
    (sessionTime s) (workColor s) (restColor s) (bgColor s) (textColor s)
    (showSettings s).

Definition setPrepTime (v : Z) (s : State) : State :=
  mkState (workTime s) (restTime s) (totalDuration s) (prepareTime s)
    (currentTime s) (isWork s) (isActive s) (isPreparing s) v
    (sessionTime s) (workColor s) (restColor s) (bgColor s) (textColor s)
    (showSettings s).

Definition setSessionTime (v : Z) (s : State) : State :=
  mkState (workTime s) (restTime s) (totalDuration s) (prepareTime s)
    (currentTime s) (isWork s) (isActive s) (isPreparing s) (prepTime s)
    v (workColor s) (restColor s) (bgColor s) (textColor s)
    (showSettings s).

Definition setWorkColor (c : string) (s : State) : State :=
  mkState (workTime s) (restTime s) (totalDuration s) (prepareTime s)
    (currentTime s) (isWork s) (isActive s) (isPreparing s) (prepTime s)
    (sessionTime s) c (restColor s) (bgColor s) (textColor s)
    (showSettings s).

Definition setRestColor (c : string) (s : State) : State :=
  mkState (workTime s) (restTime s) (totalDuration s) (prepareTime s)
    (currentTime s) (isWork s) (isActive s) (isPreparing s) (prepTime s)
    (sessionTime s) (workColor s) c (bgColor s) (textColor s)
    (showSettings s).

Definition setBgColor (c : string) (s : State) : State :=
  mkState (workTime s) (restTime s) (totalDuration s) (prepareTime s)
    (currentTime s) (isWork s) (isActive s) (isPreparing s) (prepTime s)
    (sessionTime s) (workColor s) (restColor s) c (textColor s)
    (showSettings s).

Definition setTextColor (c : string) (s : State) : State :=
  mkState (workTime s) (restTime s) (totalDuration s) (prepareTime s)
    (currentTime s) (isWork s) (isActive s) (isPreparing s) (prepTime s)
    (sessionTime s) (workColor s) (restColor s) (bgColor s) c
    (showSettings s).

Definition setShowSettings (b : bool) (s : State) : State :=
  mkState (workTime s) (restTime s) (totalDuration s) (prepareTime s)
    (currentTime s) (isWork s) (isActive s) (isPreparing s) (prepTime s)
    (sessionTime s) (workColor s) (restColor s) (bgColor s) (textColor s)
    b.

(** ** [parseInt] on the text of a number input

    [parseInt(text)] without a radix: leading white space is skipped, one
    sign is read, a [0x]/[0X] prefix switches to base 16, and the longest
    run of digits is the value.  No digit at all gives [NaN], here [None].
    Strings are byte strings, so the white space recognised is the ASCII
    part of the language's list.  The result is an exact integer; the
    source holds it in a double, which agrees on every comparison against
    the bounds used below (all at most 3600). *)

Definition isWhiteSpace (c : ascii) : bool :=
  let n := nat_of_ascii c in
  (Nat.eqb n 9 || Nat.eqb n 10 || Nat.eqb n 11 || Nat.eqb n 12
   || Nat.eqb n 13 || Nat.eqb n 32)%bool.

Fixpoint trimStart (s : string) : string :=
  match s with
  | String c rest => if isWhiteSpace c then trimStart rest else s
  | EmptyString => EmptyString
  end.

(** Value of a character as a digit in base [radix], if it is one. *)
Definition digitValue (radix : Z) (c : ascii) : option Z :=
  let n := Z.of_nat (nat_of_ascii c) in
  let v :=
    if (48 <=? n) && (n <=? 57) then Some (n - 48)
    else if (97 <=? n) && (n <=? 122) then Some (n - 97 + 10)
    else if (65 <=? n) && (n <=? 90) then Some (n - 65 + 10)
    else None in
  match v with
  | Some d => if d <? radix then Some d else None
  | None => None
  end.

(** Longest prefix of digits, most significant first; [seen] records
    whether a digit has been read, [acc] the value so far. *)
Fixpoint parseDigits (radix : Z) (seen : bool) (acc : Z) (s : string)
  : option Z :=
  match s with
  | String c rest =>
      match digitValue radix c with
      | Some d => parseDigits radix true (acc * radix + d) rest
      | None => if seen then Some acc else None
      end
  | EmptyString => if seen then Some acc else None
  end.

Definition parseUnsigned (s : string) : option Z :=
  match s with
  | String "0" (String "x" rest) => parseDigits 16 false 0 rest
  | String "0" (String "X" rest) => parseDigits 16 false 0 rest
  | _ => parseDigits 10 false 0 s
  end.

Definition parseInt (text : string) : option Z :=
  match trimStart text with
  | String "-" rest => option_map Z.opp (parseUnsigned rest)
  | String "+" rest => parseUnsigned rest
  | s => parseUnsigned s
  end.

(** [x || d] on a number: [NaN] and [0] are falsy. *)
Definition orDefault (x : option Z) (d : Z) : Z :=
  match x with
  | Some v => if v =? 0 then d else v
  | None => d
  end.

(** ** [TimerSetting]: the value its [onChange] hands to the setter *)

Definition newValue (min max : Z) (text : string) : Z :=
  Z.max min (Z.min max (orDefault (parseInt text) min)).

(** The four duration fields of the settings dialog with the bounds each
    [TimerSetting] is instantiated with ([min] is never overridden). *)
Inductive Field : Type := WorkField | RestField | TotalField | PrepField.

Definition fieldMin (f : Field) : Z := 1.

Definition fieldMax (f : Field) : Z :=
  match f with
  | WorkField => 3600
  | RestField => 3600
  | TotalField => 60
  | PrepField => 10
  end.

Definition fieldSetter (f : Field) : Z -> State -> State :=
  match f with
  | WorkField => setWorkTime
  | RestField => setRestTime
  | TotalField => setTotalDuration
  | PrepField => setPrepareTime
  end.

Definition fieldValue (f : Field) : State -> Z :=
  match f with
  | WorkField => workTime
  | RestField => restTime
  | TotalField => totalDuration
  | PrepField => prepareTime
  end.

Definition committed (f : Field) (text : string) : Z :=
  newValue (fieldMin f) (fieldMax f) text.

(** The text of an integer as it is typed: an optional minus sign and
    the decimal digits. *)
Definition decimal (z : Z) : string := NilZero.string_of_int (Z.to_int z).


(** Value of a digit sequence read after [acc]. *)
Fixpoint digitsValue (acc : Z) (d : uint) : Z :=
  match d with
  | Nil => acc
  | D0 l => digitsValue (acc * 10 + 0) l
  | D1 l => digitsValue (acc * 10 + 1) l
  | D2 l => digitsValue (acc * 10 + 2) l
  | D3 l => digitsValue (acc * 10 + 3) l
  | D4 l => digitsValue (acc * 10 + 4) l
  | D5 l => digitsValue (acc * 10 + 5) l
  | D6 l => digitsValue (acc * 10 + 6) l
  | D7 l => digitsValue (acc * 10 + 7) l
  | D8 l => digitsValue (acc * 10 + 8) l
  | D9 l => digitsValue (acc * 10 + 9) l
  end.

(** ** Handlers of [WorkoutTimer] *)

Definition startPrepTimer (s : State) : State :=
  setPrepTime (prepareTime s) (setIsPreparing true s).

Definition toggleTimer (s : State) : State :=
  if negb (isActive s) && negb (isPreparing s)
  then startPrepTimer s
  else setIsActive (negb (isActive s)) s.

Definition resetTimer (s : State) : State :=
  setSessionTime 0
    (setIsWork true
      (setCurrentTime (workTime s)
        (setPrepTime (prepareTime s)
          (setIsPreparing false
            (setIsActive false s))))).

(** ** The three interval callbacks

    Each callback is the closure of the latest render ([useTimer] stores it
    in [savedCallback] after every render), so the values it reads besides
    [prev] are those of the current state. *)

Definition prepCallback (s : State) : State :=
  let prev := prepTime s in
  if prev <=? 1
  then setPrepTime (prepareTime s) (setIsActive true (setIsPreparing false s))
  else setPrepTime (prev - 1) s.

Definition phaseCallback (s : State) : State :=
  let prev := currentTime s in
  if prev <=? 1
  then setCurrentTime
         (if prev =? 1
          then (if isWork s then restTime s else workTime s)
          else prev - 1)
         (setIsWork (negb (isWork s)) s)
  else setCurrentTime (prev - 1) s.

Definition sessionCallback (s : State) : State :=
  let prev := sessionTime s in
  if prev >=? totalDuration s * 60
  then setSessionTime prev (setIsActive false s)
  else setSessionTime (prev + 1) s.

(** The [delay] argument of each [useTimer] call; [None] is [null]. *)
Definition prepDelay (s : State) : option Z :=
  if isPreparing s then Some 1000 else None.

Definition phaseDelay (s : State) : option Z :=
  if isActive s then Some 1000 else None.

Definition sessionDelay (s : State) : option Z :=
  if isActive s then Some 1000 else None.

(** [useTimer]: an interval exists, and so the callback can fire, only
    while [delay] is not [null]. *)
Definition useTimer (callback : State -> State) (delay : State -> option Z)
  (s : State) : State :=
  match delay s with
  | Some _ => callback s
  | None => s
  end.

(** ** The effect that re-bases [currentTime]

    [useEffect(..., [workTime, isActive, isWork])] runs after a render in
    which one of the three dependencies differs from the previous render. *)

Definition rebaseDepsChanged (prev next : State) : bool :=
  negb ((workTime prev =? workTime next)
        && Bool.eqb (isActive prev) (isActive next)
        && Bool.eqb (isWork prev) (isWork next)).

Definition rebaseEffect (s : State) : State :=
  if negb (isActive s) && isWork s
  then setCurrentTime (workTime s) s
  else s.

(** One round: the handler's writes are applied together, the component
    re-renders, and the effect runs if its dependencies changed.  The
    effect writes [currentTime] only, which is no dependency, so the render
    it causes runs no further effect. *)
Definition update (handler : State -> State) (s : State) : State :=
  let next := handler s in
  if rebaseDepsChanged s next then rebaseEffect next else next.

(** ** Events: what the user and the clock can do

    The fields of the settings dialog exist only while it is open.
    Opening it writes [showSettings] and nothing else, so the edit events
    carry no guard of their own. *)

Inductive ColorField : Type := WorkColor | RestColor | BgColor | TextColor.

Definition colorSetter (c : ColorField) : string -> State -> State :=
  match c with
  | WorkColor => setWorkColor
  | RestColor => setRestColor
  | BgColor => setBgColor
  | TextColor => setTextColor
  end.

Inductive Event : Type :=
| Toggle
| Reset
| PrepTick
| PhaseTick
| SessionTick
| Edit (f : Field) (text : string)
| EditColor (c : ColorField) (value : string)
| ShowSettings (open : bool).

Definition handle (e : Event) : State -> State :=
  match e with
  | Toggle => toggleTimer
  | Reset => resetTimer
  | PrepTick => useTimer prepCallback prepDelay
  | PhaseTick => useTimer phaseCallback phaseDelay
  | SessionTick => useTimer sessionCallback sessionDelay
  | Edit f text => fieldSetter f (committed f text)
  | EditColor c value => colorSetter c value
  | ShowSettings open => setShowSettings open
  end.

Definition step (e : Event) (s : State) : State := update (handle e) s.

Fixpoint run (es : list Event) (s : State) : State :=
  match es with
  | [] => s
  | e :: rest => run rest (step e s)
  end.

(** The state after mounting: the first render runs every effect once. *)
Definition mounted : State := rebaseEffect initialState.

Inductive reachable : State -> Prop :=
| reach_mount : reachable mounted
| reach_step : forall s e, reachable s -> reachable (step e s).

Definition ticks (e : Event) (n : Z) : list Event := repeat e (Z.to_nat n).

(** ** [formatTime] and the header line

    [Math.floor(seconds / 60)] is the floor quotient, [seconds % 60] the
    remainder with the sign of [seconds].  [toString] of an integer below
    [1e21] in size is its decimal text, [decimal] here. *)

Fixpoint repeatString (n : nat) (s : string) : string :=
  match n with
  | O => EmptyString
  | S n' => s ++ repeatString n' s
  end.

(** [text.padStart(targetLength, padString)]: text that is long enough, or
    an empty filler, gives [text] back; otherwise the filler is repeated
    and cut to the missing length. *)
Definition padStart (targetLength : nat) (padString text : string) : string :=
  let len := String.length text in
  if (targetLength <=? len)%nat then text
  else if String.eqb padString EmptyString then text
  else substring 0 (targetLength - len)
         (repeatString (targetLength - len) padString) ++ text.

Definition formatTime (seconds : Z) : string :=
  let mins := seconds / 60 in
  let secs := Z.rem seconds 60 in
  decimal mins ++ ":" ++ padStart 2 "0" (decimal secs).

(** The line in the top left corner. *)
Definition header (s : State) : string :=
  formatTime (sessionTime s) ++ " / " ++ formatTime (totalDuration s * 60).

(** The character of a decimal digit. *)
Definition digitChar (d : Z) : ascii := ascii_of_nat (48 + Z.to_nat d).

(** ** Kinds of events *)

Definition isTick (e : Event) : bool :=
  match e with
  | PrepTick | PhaseTick | SessionTick => true
  | _ => false
  end.

Definition isReset (e : Event) : bool :=
  match e with Reset => true | _ => false end.

(** Events that can reopen a spent budget: reset and a Total Duration
    edit. *)
Definition reopensBudget (e : Event) : bool :=
  match e with
  | Reset => true
  | Edit TotalField _ => true
  | _ => false
  end.

(** Colour edits and the dialog flag: what only the rendering reads. *)
Definition isPresentational (e : Event) : bool :=
  match e with
  | EditColor _ _ | ShowSettings _ => true
  | _ => false
  end.

Definition fieldEqb (f g : Field) : bool :=
  match f, g with
  | WorkField, WorkField | RestField, RestField
  | TotalField, TotalField | PrepField, PrepField => true
  | _, _ => false
  end.

Definition colorValue (c : ColorField) : State -> string :=
  match c with
  | WorkColor => workColor
  | RestColor => restColor
  | BgColor => bgColor
  | TextColor => textColor
  end.

(** The ten cells the timer engine reads and writes. *)
Definition timerCells (s : State)
  : Z * Z * Z * Z * Z * bool * bool * bool * Z * Z :=
  (workTime s, restTime s, totalDuration s, prepareTime s, currentTime s,
   isWork s, isActive s, isPreparing s, prepTime s, sessionTime s).

(** ** Predicates used in the statements *)

(** The declared bounds of the four duration fields. *)
Definition configInBounds (s : State) : Prop :=
  (1 <= workTime s <= 3600) /\ (1 <= restTime s <= 3600) /\
  (1 <= totalDuration s <= 60) /\ (1 <= prepareTime s <= 10).

(** What holds of every state the component can be in. *)
Definition Inv (s : State) : Prop :=
  configInBounds s /\
  (1 <= currentTime s <= 3600) /\
  (0 <= sessionTime s <= 3600) /\
  (isActive s = false -> isWork s = true -> currentTime s = workTime s).

(** The bounds of the countdown and of the session counter, taken against
    the configuration of the same state. *)
Definition withinConfig (s : State) : Prop :=
  (0 <= currentTime s <= Z.max (workTime s) (restTime s)) /\
  (0 <= sessionTime s <= totalDuration s * 60).

Definition isDurationEdit (e : Event) : bool :=
  match e with
  | Edit _ _ => true
  | _ => false
  end.

(** Clock-only schedules: how many phase and session ticks they hold. *)
Definition isClockTick (e : Event) : bool :=
  match e with
  | PhaseTick | SessionTick => true
  | _ => false
  end.

Definition isPhaseTick (e : Event) : bool :=
  match e with PhaseTick => true | _ => false end.

Definition isSessionTick (e : Event) : bool :=
  match e with SessionTick => true | _ => false end.

Definition phaseTicks (es : list Event) : nat :=
  List.length (filter isPhaseTick es).

Definition sessionTicks (es : list Event) : nat :=
  List.length (filter isSessionTick es).

Definition isWorkEdit (e : Event) : bool :=
  match e with
  | Edit WorkField _ => true
  | _ => false
  end.

(** A schedule taken during idle preparation: every event finds
    [isPreparing] set and [isActive] clear, is no Work Time edit, and
    leaves [isPreparing] set. *)
Fixpoint duringIdlePreparation (es : list Event) (s : State) : bool :=
  match es with
  | [] => true
  | e :: rest =>
      isPreparing s && negb (isActive s) && negb (isWorkEdit e)
      && isPreparing (step e s)
      && duringIdlePreparation rest (step e s)
  end.

(** ** States used as concrete inputs *)

(** Start pressed after mounting and the preparation counted down. *)
Definition started : State :=
  run (Toggle :: ticks PrepTick (prepareTime mounted)) mounted.

(** Five seconds into the first Work phase. *)
Definition midWork : State :=
  run (ticks PhaseTick 5 ++ ticks SessionTick 5) started.

(** Five seconds into the first Rest phase. *)
Definition midRest : State :=
  run (ticks PhaseTick 45 ++ ticks SessionTick 45) started.

(** Paused five seconds into the first Rest phase. *)
Definition pausedInRest : State := step Toggle midRest.

(** A one-minute session with a Work phase of 100 seconds, clock ticks
    in lockstep until the budget is spent: 60 seconds into Work. *)
Definition budgetSpent : State :=
  run ([ShowSettings true; Edit WorkField "100"; Edit TotalField "1";
        ShowSettings false; Toggle]
         ++ ticks PrepTick 3
         ++ List.concat (repeat [PhaseTick; SessionTick] 60))
      mounted.

(** The state when start has been pressed once. *)
Definition preparing : State := step Toggle mounted.

(** The Work duration lowered to 5 seconds while the first Work phase
    runs. *)
Definition shortenedWhileRunning : State :=
  run [ShowSettings true; Edit WorkField "5"] started.

(** ** Proof support *)

Ltac unfold_round :=
  cbv beta iota zeta delta
    [step update handle useTimer prepDelay phaseDelay sessionDelay
     prepCallback phaseCallback sessionCallback toggleTimer startPrepTimer
     resetTimer rebaseDepsChanged rebaseEffect fieldSetter colorSetter
     fieldValue
     setWorkTime setRestTime setTotalDuration setPrepareTime
     setCurrentTime setIsWork setIsActive setIsPreparing setPrepTime
     setSessionTime setWorkColor setRestColor setBgColor setTextColor
     setShowSettings
     workTime restTime totalDuration prepareTime currentTime isWork
     isActive isPreparing prepTime sessionTime workColor restColor bgColor
     textColor showSettings negb andb orb Bool.eqb].

Ltac reduce_round :=
  rewrite ?Z.eqb_refl, ?Z.geb_leb;
  cbv beta iota delta [negb andb orb Bool.eqb].

Ltac split_if :=
  match goal with
  | |- context [if ?b then _ else _] =>
      match b with
      | context [Z.leb ?x ?y] => destruct (Z.leb_spec0 x y)
      | context [Z.ltb ?x ?y] => destruct (Z.ltb_spec0 x y)
      | context [Z.eqb ?x ?y] => destruct (Z.eqb_spec x y)
      | _ => is_var b; destruct b
      end
  end.

(** Evaluate one round on a state whose fields are variables. *)
Ltac rounds := unfold_round; reduce_round; repeat (split_if; reduce_round).

Ltac open_state s :=
  destruct s as [wT rT tD pT cT iW iA iP ppT sT wC rC bC tC sS];
  cbv beta iota delta
    [workTime restTime totalDuration prepareTime currentTime isWork
     isActive isPreparing prepTime sessionTime workColor restColor bgColor
     textColor showSettings] in *.

Ltac finish := repeat split; intros; subst; try lia; try congruence; auto.

(** Decide a closed conjunction of equations and comparisons. *)
Ltac concrete := repeat split; try reflexivity; try (vm_compute; discriminate).

Lemma run_app (es1 es2 : list Event) (s : State) :
  run (es1 ++ es2) s = run es2 (run es1 s).
Proof.
  revert s. induction es1 as [|e es1 IH]; intro s; cbn; [reflexivity|].
  apply IH.
Qed.

Lemma reachable_run (es : list Event) (s : State) :
  reachable s -> reachable (run es s).
Proof.
  revert s. induction es as [|e es IH]; intros s Hs; cbn; [exact Hs|].
  apply IH. now constructor.
Qed.

Lemma committed_bounds (f : Field) (text : string) :
  fieldMin f <= committed f text <= fieldMax f.
Proof.
  unfold committed, newValue, fieldMin. destruct f; cbn [fieldMax]; lia.
Qed.

Lemma Inv_mounted : Inv mounted.
Proof.
  repeat split; intros; try reflexivity; vm_compute; congruence.
Qed.

Lemma Inv_step (e : Event) (s : State) : Inv s -> Inv (step e s).
Proof.
  unfold Inv, configInBounds. intros [[Hw [Hr [Ht Hp]]] [Hc [Hs Hi]]].
  destruct e as [| | | | |f text|cf value|open].
  1-5: open_state s; destruct iW, iA, iP; rounds; finish.
  - pose proof (committed_bounds f text) as Hb. unfold fieldMin in Hb.
    open_state s; destruct f; cbn [fieldMax] in Hb;
      destruct iW, iA, iP; rounds; finish.
  - open_state s; destruct cf, iW, iA, iP; rounds; finish.
  - open_state s; destruct iW, iA, iP; rounds; finish.
Qed.

Lemma reachable_Inv (s : State) : reachable s -> Inv s.
Proof.
  induction 1 as [|s e _ IH]; [exact Inv_mounted | now apply Inv_step].
Qed.

(** ** Elementary facts about single rounds *)

Lemma setCurrentTime_same (s : State) : setCurrentTime (currentTime s) s = s.
Proof. now destruct s. Qed.

Lemma setSessionTime_same (s : State) : setSessionTime (sessionTime s) s = s.
Proof. now destruct s. Qed.

Lemma setSessionTime_twice (a b : Z) (s : State) :
  setSessionTime a (setSessionTime b s) = setSessionTime a s.
Proof. now destruct s. Qed.

(** A tick whose interval does not exist changes nothing. *)
Lemma idle_clock_is_still (s : State) :
  isActive s = false -> isPreparing s = false ->
  step PrepTick s = s /\ step PhaseTick s = s /\ step SessionTick s = s.
Proof.
  intros Ha Hp. open_state s. subst. rounds; finish.
Qed.

Lemma phase_tick_decrements (s : State) :
  isActive s = true -> 1 < currentTime s ->
  step PhaseTick s = setCurrentTime (currentTime s - 1) s.
Proof.
  intros Ha Hc. open_state s. subst. destruct iW; rounds; finish.
Qed.

Lemma phase_tick_flips (s : State) :
  isActive s = true -> currentTime s = 1 ->
  step PhaseTick s =
    setCurrentTime (if isWork s then restTime s else workTime s)
      (setIsWork (negb (isWork s)) s).
Proof.
  intros Ha Hc. open_state s. subst. destruct iW; rounds; finish.
Qed.

Lemma phase_tick_frame (s : State) :
  isActive (step PhaseTick s) = isActive s /\
  sessionTime (step PhaseTick s) = sessionTime s /\
  totalDuration (step PhaseTick s) = totalDuration s.
Proof.
  open_state s. destruct iW, iA; rounds; finish.
Qed.

Lemma session_tick_increments (s : State) :
  isActive s = true -> sessionTime s < totalDuration s * 60 ->
  step SessionTick s = setSessionTime (sessionTime s + 1) s.
Proof.
  intros Ha Hc. open_state s. subst. destruct iW; rounds; finish.
Qed.

(** The tick at the end of the budget: the counter stays, [isActive]
    falls, and the re-base effect, whose dependency [isActive] changed,
    rewrites the countdown when the phase is Work. *)
Lemma session_tick_stops (s : State) :
  isActive s = true -> totalDuration s * 60 <= sessionTime s ->
  step SessionTick s =
    (if isWork s then setCurrentTime (workTime s) (setIsActive false s)
     else setIsActive false s).
Proof.
  intros Ha Hc. open_state s. subst. destruct iW; rounds; finish.
Qed.

(** Pausing: [isActive] falls and the re-base effect runs. *)
Lemma pause_round (s : State) :
  isActive s = true ->
  step Toggle s =
    (if isWork s then setCurrentTime (workTime s) (setIsActive false s)
     else setIsActive false s).
Proof.
  intros Ha. open_state s. subst. destruct iW, iP; rounds; finish.
Qed.

Lemma start_round (s : State) :
  isActive s = false -> isPreparing s = false ->
  step Toggle s = setPrepTime (prepareTime s) (setIsPreparing true s).
Proof.
  intros Ha Hp. open_state s. subst. destruct iW; rounds; finish.
Qed.

(** ** The phase countdown *)

Lemma countdown (n : nat) (s : State) :
  isActive s = true -> Z.of_nat n < currentTime s ->
  run (repeat PhaseTick n) s = setCurrentTime (currentTime s - Z.of_nat n) s.
Proof.
  revert s. induction n as [|n IH]; intros s Ha Hc.
  - cbn [repeat run Z.of_nat]. rewrite Z.sub_0_r. symmetry.
    apply setCurrentTime_same.
  - cbn [repeat run]. rewrite phase_tick_decrements by (auto; lia).
    rewrite IH; cbn [currentTime isActive setCurrentTime]; try lia; auto.
    unfold setCurrentTime; cbn. f_equal. lia.
Qed.

(** From [c] seconds left, [c] ticks end the phase: [c - 1] decrements and
    one flip. *)
Lemma phase_runs_out (s : State) :
  isActive s = true -> 1 <= currentTime s ->
  run (ticks PhaseTick (currentTime s)) s =
    setCurrentTime (if isWork s then restTime s else workTime s)
      (setIsWork (negb (isWork s)) s).
Proof.
  intros Ha Hc. unfold ticks.
  replace (Z.to_nat (currentTime s)) with (Z.to_nat (currentTime s - 1) + 1)%nat
    by lia.
  rewrite repeat_app, run_app.
  rewrite (countdown (Z.to_nat (currentTime s - 1)) s) by (auto; lia).
  cbn [repeat run].
  rewrite phase_tick_flips; cbn [isActive currentTime setCurrentTime]; auto;
    lia.
Qed.

Lemma phase_ticks_commute_session (n : nat) (v : Z) (s : State) :
  run (repeat PhaseTick n) (setSessionTime v s) =
  setSessionTime v (run (repeat PhaseTick n) s).
Proof.
  revert s. induction n as [|n IH]; intro s; cbn [repeat run]; [reflexivity|].
  rewrite <- IH. f_equal.
  open_state s. destruct iW, iA; rounds; finish.
Qed.

Lemma phase_run_frame (n : nat) (s : State) :
  isActive (run (repeat PhaseTick n) s) = isActive s /\
  sessionTime (run (repeat PhaseTick n) s) = sessionTime s /\
  totalDuration (run (repeat PhaseTick n) s) = totalDuration s.
Proof.
  revert s. induction n as [|n IH]; intro s; cbn [repeat run]; [auto|].
  destruct (IH (step PhaseTick s)) as (H1 & H2 & H3).
  destruct (phase_tick_frame s) as (F1 & F2 & F3).
  repeat split; congruence.
Qed.

(** Session ticks below the budget only count: a schedule of phase and
    session ticks leaves the countdown where its phase ticks alone would. *)
Lemma clock_schedule (es : list Event) (s : State) :
  isActive s = true ->
  forallb isClockTick es = true ->
  sessionTime s + Z.of_nat (sessionTicks es) <= totalDuration s * 60 ->
  run es s =
    setSessionTime (sessionTime s + Z.of_nat (sessionTicks es))
      (run (repeat PhaseTick (phaseTicks es)) s).
Proof.
  revert s. unfold phaseTicks, sessionTicks.
  induction es as [|e es IH]; intros s Ha Hes Hb.
  - cbn. rewrite Z.add_0_r. symmetry. apply setSessionTime_same.
  - cbn [forallb] in Hes. apply andb_true_iff in Hes as [He Hes].
    destruct (phase_tick_frame s) as (F1 & F2 & F3).
    destruct e; try discriminate He;
      cbn [filter isPhaseTick isSessionTick List.length repeat run] in *.
    + rewrite IH; congruence.
    + rewrite session_tick_increments by (auto; lia).
      rewrite IH; cbn [isActive sessionTime totalDuration setSessionTime];
        auto; try lia.
      rewrite phase_ticks_commute_session, setSessionTime_twice.
      f_equal. lia.
Qed.

Lemma full_cycle (s : State) :
  1 <= workTime s -> 1 <= restTime s ->
  isActive s = true -> isWork s = true -> currentTime s = workTime s ->
  run (ticks PhaseTick (workTime s + restTime s)) s = s.
Proof.
  intros Hw Hr Ha Hk Hc. unfold ticks.
  rewrite Z2Nat.inj_add, repeat_app, run_app by lia.
  rewrite <- Hc at 1. fold (ticks PhaseTick (currentTime s)).
  rewrite phase_runs_out by (auto; lia). rewrite Hk. cbn [negb].
  set (resting := setCurrentTime (restTime s) (setIsWork false s)).
  change (restTime s) with (currentTime resting).
  fold (ticks PhaseTick (currentTime resting)).
  rewrite phase_runs_out; subst resting;
    cbn [isActive currentTime setCurrentTime setIsWork isWork]; auto;
    try lia.
  open_state s. subst. reflexivity.
Qed.

Lemma cycles_repeat (n k : nat) (s : State) :
  1 <= workTime s -> 1 <= restTime s ->
  isActive s = true -> isWork s = true -> currentTime s = workTime s ->
  run (repeat PhaseTick (n * Z.to_nat (workTime s + restTime s) + k)) s =
  run (repeat PhaseTick k) s.
Proof.
  intros Hw Hr Ha Hk Hc. induction n as [|n IH]; [reflexivity|].
  cbn [Nat.mul]. rewrite <- Nat.add_assoc, repeat_app, run_app.
  fold (ticks PhaseTick (workTime s + restTime s)).
  rewrite full_cycle by assumption. exact IH.
Qed.

(** C3. With both durations in [1, 3600], from a running state at the
    start of Work: fewer than [workTime] phase ticks only decrement the
    countdown; the [workTime]-th tick, the one that finds 1, switches to
    Rest with [restTime] on the countdown; the same holds for Rest, whose
    [restTime]-th tick gives back the starting state.  Any active tick
    that finds a value of at least 1 flips exactly when it finds 1.  The
    cycle repeats any number of times, and session ticks that stay within
    [totalDuration * 60] do not disturb it. *)
Theorem phase_alternation (s : State) :
  1 <= workTime s <= 3600 -> 1 <= restTime s <= 3600 ->
  isActive s = true -> isWork s = true -> currentTime s = workTime s ->
  let resting := setCurrentTime (restTime s) (setIsWork false s) in
  (forall k, 0 <= k < workTime s ->
     run (ticks PhaseTick k) s = setCurrentTime (workTime s - k) s) /\
  run (ticks PhaseTick (workTime s)) s = resting /\
  (forall k, 0 <= k < restTime s ->
     run (ticks PhaseTick k) resting = setCurrentTime (restTime s - k) resting) /\
  run (ticks PhaseTick (restTime s)) resting = s /\
  (forall u, isActive u = true -> 1 <= currentTime u ->
     step PhaseTick u =
       if currentTime u =? 1
       then setCurrentTime (if isWork u then restTime u else workTime u)
              (setIsWork (negb (isWork u)) u)
       else setCurrentTime (currentTime u - 1) u) /\
  (forall n k : nat,
     run (repeat PhaseTick (n * Z.to_nat (workTime s + restTime s) + k)) s =
     run (repeat PhaseTick k) s) /\
  (forall es, forallb isClockTick es = true ->
     sessionTime s + Z.of_nat (sessionTicks es) <= totalDuration s * 60 ->
     run es s =
       setSessionTime (sessionTime s + Z.of_nat (sessionTicks es))
         (run (repeat PhaseTick (phaseTicks es)) s)).
Proof.
  intros Hw Hr Ha Hk Hc resting.
  assert (Hwork : run (ticks PhaseTick (workTime s)) s = resting).
  { rewrite <- Hc at 1. rewrite phase_runs_out by (auto; lia).
    now rewrite Hk. }
  repeat apply conj.
  - intros k Hkk. unfold ticks. rewrite countdown by (auto; lia).
    rewrite Z2Nat.id by lia. now rewrite Hc.
  - exact Hwork.
  - intros k Hkk. unfold ticks. rewrite countdown; subst resting;
      cbn [isActive currentTime setCurrentTime setIsWork]; auto; try lia.
    now rewrite Z2Nat.id by lia.
  - change (restTime s) with (currentTime resting) at 1.
    rewrite phase_runs_out; subst resting;
      cbn [isActive currentTime setCurrentTime setIsWork isWork]; auto;
      try lia.
    open_state s. subst. reflexivity.
  - intros u Hu Hcu. destruct (Z.eqb_spec (currentTime u) 1) as [E|E].
    + now apply phase_tick_flips.
    + apply phase_tick_decrements; auto; lia.
  - intros n k. apply cycles_repeat; auto; lia.
  - intros es Hes Hb. now apply clock_schedule.
Qed.

Lemma phase_alternation_witness :
  (1 <= workTime started <= 3600 /\ 1 <= restTime started <= 3600 /\
   isActive started = true /\ isWork started = true /\
   currentTime started = workTime started) /\
  run (ticks PhaseTick 40) started = setCurrentTime 20 (setIsWork false started) /\
  run (ticks PhaseTick 20) (setCurrentTime 20 (setIsWork false started)) = started.
Proof.
  assert (Hw : 1 <= workTime started <= 3600) by concrete.
  assert (Hr : 1 <= restTime started <= 3600) by concrete.
  pose proof (phase_alternation started Hw Hr eq_refl eq_refl eq_refl) as H.
  cbv zeta in H. destruct H as (_ & Hwork & _ & Hrest & _).
  split; [concrete | split; [exact Hwork | exact Hrest]].
Defined.

(** ** Preparation *)

Lemma prep_tick_decrements (s : State) :
  isPreparing s = true -> 1 < prepTime s ->
  step PrepTick s = setPrepTime (prepTime s - 1) s.
Proof.
  intros Hp Hc. open_state s. subst. destruct iW, iA; rounds; finish.
Qed.

Lemma prep_tick_finishes (s : State) :
  isPreparing s = true -> prepTime s <= 1 ->
  step PrepTick s =
    setPrepTime (prepareTime s) (setIsActive true (setIsPreparing false s)).
Proof.
  intros Hp Hc. open_state s. subst. destruct iW, iA; rounds; finish.
Qed.

Lemma prep_countdown (n : nat) (s : State) :
  isPreparing s = true -> Z.of_nat n < prepTime s ->
  run (repeat PrepTick n) s = setPrepTime (prepTime s - Z.of_nat n) s.
Proof.
  revert s. induction n as [|n IH]; intros s Hp Hc.
  - cbn [repeat run Z.of_nat]. rewrite Z.sub_0_r. now destruct s.
  - cbn [repeat run]. rewrite prep_tick_decrements by (auto; lia).
    rewrite IH; cbn [prepTime isPreparing setPrepTime]; try lia; auto.
    unfold setPrepTime; cbn. f_equal. lia.
Qed.

(** C4, as the code has it.  From a state that is neither active nor
    preparing, with [prepareTime] at least 1: the start action enters
    preparation with [prepTime = prepareTime]; fewer than [prepareTime]
    prep ticks only decrement [prepTime]; the [prepareTime]-th tick ends
    preparation, sets [isActive], and writes [prepareTime] back into
    [prepTime] at once.  Nothing else changes: the machine runs in the
    phase it was in before the start, Work only if it was Work. *)
Theorem start_then_prepare (s : State) :
  1 <= prepareTime s -> isActive s = false -> isPreparing s = false ->
  let entered := step Toggle s in
  let ready := run (ticks PrepTick (prepareTime s)) entered in
  (isPreparing entered = true /\ isActive entered = false /\ prepTime entered = prepareTime s) /\
  (forall k, 0 <= k < prepareTime s ->
     run (ticks PrepTick k) entered = setPrepTime (prepareTime s - k) entered) /\
  ready = setPrepTime (prepareTime s) (setIsActive true s) /\
  (isPreparing ready = false /\ isActive ready = true /\ prepTime ready = prepareTime s) /\
  (isWork ready = isWork s /\ currentTime ready = currentTime s).
Proof.
  intros Hp Ha Hi entered ready.
  assert (Ep : entered = setPrepTime (prepareTime s) (setIsPreparing true s))
    by (now apply start_round).
  assert (Er : ready = setPrepTime (prepareTime s) (setIsActive true s)).
  { subst ready. unfold ticks.
    replace (Z.to_nat (prepareTime s))
      with (Z.to_nat (prepareTime s - 1) + 1)%nat by lia.
    rewrite repeat_app, run_app.
    rewrite (prep_countdown (Z.to_nat (prepareTime s - 1)) entered)
      by (rewrite Ep; cbn [isPreparing prepTime setPrepTime setIsPreparing];
          auto; lia).
    cbn [repeat run].
    rewrite prep_tick_finishes; rewrite Ep;
      cbn [isPreparing prepTime setPrepTime setIsPreparing]; auto; try lia.
    open_state s. subst. reflexivity. }
  repeat apply conj; try (rewrite Er); try (rewrite Ep);
    cbn [isPreparing isActive prepTime isWork currentTime setPrepTime
         setIsPreparing setIsActive]; auto.
  intros k Hk. unfold ticks. rewrite prep_countdown;
    cbn [isPreparing prepTime setPrepTime setIsPreparing]; auto; try lia.
  now rewrite Z2Nat.id by lia.
Qed.

Lemma start_then_prepare_witness :
  (1 <= prepareTime pausedInRest /\ isActive pausedInRest = false /\
   isPreparing pausedInRest = false) /\
  run (ticks PrepTick 3) (step Toggle pausedInRest) =
    setPrepTime 3 (setIsActive true pausedInRest).
Proof.
  assert (Hp : 1 <= prepareTime pausedInRest) by concrete.
  pose proof (start_then_prepare pausedInRest Hp eq_refl eq_refl) as H.
  cbv zeta in H. destruct H as (_ & _ & Hr & _).
  split; [concrete | exact Hr].
Defined.

(** C4 as worded fails: started again after a pause in Rest, the machine
    comes out of preparation in Rest. *)
Lemma start_after_rest_pause_is_rest :
  ~ (forall s, reachable s -> isActive s = false -> isPreparing s = false ->
       let r := run (Toggle :: ticks PrepTick (prepareTime s)) s in
       isPreparing r = false /\ isActive r = true /\ isWork r = true).
Proof.
  intro H.
  assert (Hreach : reachable pausedInRest).
  { unfold pausedInRest, midRest, started.
    apply reach_step, reachable_run, reachable_run, reach_mount. }
  specialize (H pausedInRest Hreach eq_refl eq_refl).
  cbv zeta in H. destruct H as (_ & _ & Hw).
  vm_compute in Hw. discriminate Hw.
Qed.

(** ** Pause and resume *)

(** The session counter is untouched by the toggle. *)
Lemma toggle_keeps_session (s : State) :
  sessionTime (step Toggle s) = sessionTime s.
Proof.
  open_state s. destruct iW, iA, iP; rounds; finish.
Qed.

(** In Rest, pausing and pressing again keeps the countdown. *)
Lemma pause_resume_in_rest (s : State) :
  isActive s = true -> isWork s = false ->
  currentTime (step Toggle s) = currentTime s /\
  currentTime (run [Toggle; Toggle] s) = currentTime s /\
  sessionTime (run [Toggle; Toggle] s) = sessionTime s.
Proof.
  intros Ha Hw. open_state s. subst. destruct iP; cbn [run]; rounds; finish.
Qed.

(** In Work, pausing puts the countdown back to [workTime]. *)
Lemma pause_resume_in_work (s : State) :
  isActive s = true -> isWork s = true ->
  currentTime (step Toggle s) = workTime s /\
  currentTime (run [Toggle; Toggle] s) = workTime s /\
  sessionTime (run [Toggle; Toggle] s) = sessionTime s.
Proof.
  intros Ha Hw. open_state s. subst. destruct iP; cbn [run]; rounds; finish.
Qed.

(** C1 at a concrete input.  Five seconds into the first Work phase of
    the default configuration (35 on the countdown, 5 on the session
    counter), the pause puts the countdown back to 40, and it is still 40
    after the second press; the session counter stays at 5. *)
Theorem pause_in_work_rewinds :
  reachable midWork /\
  (isActive midWork = true /\ isPreparing midWork = false /\
   isWork midWork = true /\
   currentTime midWork = 35 /\ sessionTime midWork = 5) /\
  (currentTime (step Toggle midWork) = 40 /\
   sessionTime (step Toggle midWork) = 5) /\
  (currentTime (run [Toggle; Toggle] midWork) = 40 /\
   sessionTime (run [Toggle; Toggle] midWork) = 5).
Proof.
  split; [|concrete].
  unfold midWork, started. apply reachable_run, reachable_run, reach_mount.
Qed.

(** ** The end of the session *)

(** C2 at a concrete input.  One-minute budget, Work phase of 100
    seconds, 60 seconds run: the countdown is at 40 in Work.  The session
    tick that finds the budget spent clears [isActive] and leaves the
    counter at 60, and the countdown is rewritten to 100, whether the
    phase tick of that second comes before it or not. *)
Theorem session_end_rewinds_work :
  reachable budgetSpent /\
  (isActive budgetSpent = true /\ isWork budgetSpent = true /\
   currentTime budgetSpent = 40 /\
   sessionTime budgetSpent = 60 /\ totalDuration budgetSpent * 60 = 60) /\
  (isActive (step SessionTick budgetSpent) = false /\
   sessionTime (step SessionTick budgetSpent) = 60 /\
   isWork (step SessionTick budgetSpent) = true /\
   currentTime (step SessionTick budgetSpent) = 100) /\
  (currentTime (step PhaseTick budgetSpent) = 39 /\
   currentTime (run [PhaseTick; SessionTick] budgetSpent) = 100).
Proof.
  split; [|concrete].
  unfold budgetSpent. apply reachable_run, reach_mount.
Qed.

(** ** Editing the work duration *)

(** C6. Writing [w] into [workTime] while not active and in Work puts [w]
    on the countdown at once (the effect runs because [workTime] changed;
    in a reachable state the countdown already equals [workTime] when [w]
    is the old value); while active the countdown is left alone.  The
    Work Time field of the dialog does exactly this with the value it
    commits. *)
Theorem work_edit_rebase (s : State) (w : Z) :
  (isActive s = false -> isWork s = true ->
   w <> workTime s \/ reachable s ->
   currentTime (update (setWorkTime w) s) = w) /\
  (isActive s = true ->
   currentTime (update (setWorkTime w) s) = currentTime s) /\
  workTime (update (setWorkTime w) s) = w /\
  (forall text,
     step (Edit WorkField text) s =
     update (setWorkTime (committed WorkField text)) s).
Proof.
  repeat apply conj.
  - intros Ha Hw Hnew.
    assert (Hcur : w = workTime s -> currentTime s = workTime s).
    { intro E. destruct Hnew as [N|R]; [contradiction|].
      apply reachable_Inv in R. now apply R. }
    open_state s. subst. rounds; finish.
  - intros Ha. open_state s. subst. destruct iW; rounds; finish.
  - open_state s. destruct iW, iA; rounds; finish.
  - reflexivity.
Qed.

Lemma work_edit_rebase_witness :
  currentTime (update (setWorkTime 50) mounted) = 50 /\
  currentTime (update (setWorkTime 50) midWork) = 35.
Proof.
  destruct (work_edit_rebase mounted 50) as (Hidle & _).
  destruct (work_edit_rebase midWork 50) as (_ & Hactive & _).
  split.
  - apply Hidle; [reflexivity | reflexivity | left; discriminate].
  - exact (Hactive eq_refl).
Defined.

(** ** Reset *)

(** C7. Reset leaves any state with both flags cleared, [prepTime] at
    [prepareTime], the countdown at [workTime], the phase Work and the
    session counter at 0; a second reset changes nothing more. *)
Theorem reset_restores (s : State) :
  let r := step Reset s in
  isActive r = false /\ isPreparing r = false /\
  prepTime r = prepareTime r /\ currentTime r = workTime r /\
  isWork r = true /\ sessionTime r = 0 /\
  step Reset r = r.
Proof.
  open_state s. destruct iW, iA; rounds; finish.
Qed.

(** C10. Reset writes [isActive], [isPreparing], [prepTime],
    [currentTime], [isWork] and [sessionTime] only: the four durations and
    the four colours (and the dialog flag) are as before. *)
Theorem reset_keeps_configuration (s : State) :
  let r := step Reset s in
  workTime r = workTime s /\ restTime r = restTime s /\
  totalDuration r = totalDuration s /\ prepareTime r = prepareTime s /\
  workColor r = workColor s /\ restColor r = restColor s /\
  bgColor r = bgColor s /\ textColor r = textColor s /\
  showSettings r = showSettings s /\
  r = mkState (workTime s) (restTime s) (totalDuration s) (prepareTime s)
        (workTime s) true false false (prepareTime s) 0
        (workColor s) (restColor s) (bgColor s) (textColor s)
        (showSettings s).
Proof.
  open_state s. destruct iW, iA; rounds; finish.
Qed.

(** ** The countdown during preparation *)

Lemma idle_preparation_step (e : Event) (s : State) :
  isPreparing s = true -> isActive s = false -> isWorkEdit e = false ->
  isPreparing (step e s) = true ->
  currentTime (step e s) = currentTime s.
Proof.
  intros Hp Ha He Hq.
  destruct e as [| | | | |f text|cf value|open].
  1-5: open_state s; subst; destruct iW; revert Hq; rounds; finish.
  - destruct f; try discriminate He;
      open_state s; subst; destruct iW; rounds; finish.
  - open_state s; subst; destruct cf, iW; rounds; finish.
  - open_state s; subst; destruct iW; rounds; finish.
Qed.

(** C8, as the code has it.  While [isPreparing] is set and [isActive] is
    clear, the phase and session tickers have no interval, and no schedule
    of ticks and actions taken in such states, Work Time edits apart,
    changes the countdown.  The toggle pressed there sets [isActive] and
    keeps [isPreparing]; what the phase ticker does after that is not
    covered. *)
Theorem countdown_frozen_in_idle_preparation (s : State) :
  isPreparing s = true -> isActive s = false ->
  (forall es, duringIdlePreparation es s = true ->
     currentTime (run es s) = currentTime s) /\
  (phaseDelay s = None /\ sessionDelay s = None /\
   step PhaseTick s = s /\ step SessionTick s = s) /\
  (isPreparing (step Toggle s) = true /\ isActive (step Toggle s) = true /\
   currentTime (step Toggle s) = currentTime s).
Proof.
  intros Hp Ha. repeat apply conj.
  - intros es. clear Hp Ha. revert s.
    induction es as [|e es IH]; intros s Hes; [reflexivity|].
    cbn [duringIdlePreparation] in Hes.
    repeat (apply andb_true_iff in Hes as [Hes ?]).
    cbn [run]. rewrite IH by assumption.
    apply idle_preparation_step; auto.
    + now apply negb_true_iff.
    + now apply negb_true_iff.
  - unfold phaseDelay. now rewrite Ha.
  - unfold sessionDelay. now rewrite Ha.
  - open_state s. subst. destruct iW; rounds; finish.
  - open_state s. subst. destruct iW; rounds; finish.
  - open_state s. subst. destruct iW; rounds; finish.
  - open_state s. subst. destruct iW; rounds; finish.
  - open_state s. subst. destruct iW; rounds; finish.
Qed.

Lemma countdown_frozen_in_idle_preparation_witness :
  (isPreparing preparing = true /\ isActive preparing = false) /\
  currentTime (run [PrepTick; Edit RestField "30"; PrepTick; Toggle] preparing)
    = currentTime preparing.
Proof.
  destruct (countdown_frozen_in_idle_preparation preparing eq_refl eq_refl)
    as (Hrun & _).
  split; [concrete | apply Hrun; reflexivity].
Defined.

(** C8 as worded fails: the toggle pressed during preparation sets
    [isActive], the phase ticker gets its interval, and its tick takes the
    countdown from 40 to 39 while [isPreparing] is still set. *)
Lemma phase_tick_fires_while_preparing :
  ~ (forall s es, reachable s -> isPreparing s = true ->
       (forall k, isPreparing (run (firstn k es) s) = true) ->
       currentTime (run es s) = currentTime s).
Proof.
  intro H.
  assert (Hreach : reachable preparing) by apply reach_step, reach_mount.
  specialize (H preparing [Toggle; PhaseTick] Hreach eq_refl).
  assert (Hk : forall k,
             isPreparing (run (firstn k [Toggle; PhaseTick]) preparing) = true).
  { intros [|[|[|k]]]; reflexivity. }
  specialize (H Hk). vm_compute in H. discriminate H.
Qed.

(** ** Bounds of the counters *)

Lemma withinConfig_step (e : Event) (s : State) :
  Inv s -> isDurationEdit e = false ->
  withinConfig s -> withinConfig (step e s).
Proof.
  unfold Inv, configInBounds, withinConfig.
  intros [[Hw [Hr [Ht Hp]]] [Hc [Hs Hi]]] He [Hcc Hss].
  destruct e as [| | | | |f text|cf value|open]; try discriminate He.
  1-5: open_state s; destruct iW, iA, iP; rounds; finish.
  - open_state s; destruct cf, iW, iA, iP; rounds; finish.
  - open_state s; destruct iW, iA, iP; rounds; finish.
Qed.

(** C9, as the code has it.  In every reachable state the countdown lies
    in [1, 3600] and the session counter in [0, 3600], the largest values
    the declared field bounds allow.  The bounds taken against the state's
    own configuration, [0, max workTime restTime] and
    [0, totalDuration * 60], hold after mounting and are kept by every
    action and tick that is not a duration edit. *)
Theorem counters_bounded (s : State) :
  reachable s ->
  (1 <= currentTime s <= 3600 /\ 0 <= sessionTime s <= 3600) /\
  withinConfig mounted /\
  (forall e, isDurationEdit e = false ->
     withinConfig s -> withinConfig (step e s)).
Proof.
  intros Hreach. pose proof (reachable_Inv s Hreach) as HI.
  repeat apply conj; try apply HI.
  - vm_compute; discriminate.
  - vm_compute; discriminate.
  - vm_compute; discriminate.
  - vm_compute; discriminate.
  - intros e He Hc. now apply withinConfig_step.
Qed.

Lemma counters_bounded_witness :
  reachable midWork /\
  (1 <= currentTime midWork <= 3600 /\ 0 <= sessionTime midWork <= 3600).
Proof.
  assert (Hreach : reachable midWork).
  { unfold midWork, started. apply reachable_run, reachable_run, reach_mount. }
  split; [exact Hreach | exact (proj1 (counters_bounded midWork Hreach))].
Defined.

(** C9 as worded fails: lowering Work Time to 5 while the first Work phase
    runs leaves 40 on the countdown, above [max 5 20]. *)
Lemma shrinking_edit_breaks_bound :
  ~ (forall s, reachable s ->
       (0 <= currentTime s <= Z.max (workTime s) (restTime s)) /\
       (0 <= sessionTime s <= totalDuration s * 60)).
Proof.
  intro H.
  assert (Hreach : reachable shortenedWhileRunning).
  { unfold shortenedWhileRunning, started.
    apply reachable_run, reachable_run, reach_mount. }
  destruct (H _ Hreach) as [[_ Hc] _].
  vm_compute in Hc. now apply Hc.
Qed.

(** ** The settings fields *)

Lemma parseDigits_seen (d : uint) (acc : Z) :
  parseDigits 10 true acc (NilEmpty.string_of_uint d) = Some (digitsValue acc d).
Proof.
  revert acc. induction d; intro acc; cbn [NilEmpty.string_of_uint digitsValue];
    [reflexivity | ..];
    (etransitivity; [|apply IHd]); reflexivity.
Qed.

Lemma parseDigits_fresh (d : uint) :
  d <> Nil ->
  parseDigits 10 false 0 (NilEmpty.string_of_uint d) = Some (digitsValue 0 d).
Proof.
  destruct d; [congruence | ..]; intros _;
    cbn [NilEmpty.string_of_uint digitsValue];
    (etransitivity; [|apply parseDigits_seen]); reflexivity.
Qed.

Lemma digitsValue_pos (d : uint) (a : positive) :
  digitsValue (Z.pos a) d = Z.pos (Pos.of_uint_acc d a).
Proof.
  revert a. induction d; intro a; cbn [digitsValue Pos.of_uint_acc];
    [reflexivity | ..];
    match goal with
    | |- digitsValue ?x _ = Z.pos (Pos.of_uint_acc _ ?y) =>
        replace x with (Z.pos y) by lia
    end; apply IHd.
Qed.

Lemma digitsValue_zero (d : uint) : digitsValue 0 d = Z.of_N (Pos.of_uint d).
Proof.
  induction d; cbn [digitsValue Pos.of_uint]; [reflexivity | exact IHd | ..];
    cbn [Z.mul Z.add Z.of_N]; apply digitsValue_pos.
Qed.

Lemma parseUnsigned_digits (d : uint) :
  parseUnsigned (NilEmpty.string_of_uint d) =
  parseDigits 10 false 0 (NilEmpty.string_of_uint d).
Proof.
  destruct d as [|d|d|d|d|d|d|d|d|d|d]; try reflexivity;
    destruct d; reflexivity.
Qed.

Lemma parseInt_digits (d : uint) :
  parseInt (NilEmpty.string_of_uint d) =
  parseDigits 10 false 0 (NilEmpty.string_of_uint d).
Proof.
  destruct d as [|d|d|d|d|d|d|d|d|d|d]; try reflexivity;
    destruct d; reflexivity.
Qed.

(** [parseInt] reads the decimal text of an integer as that integer. *)
Lemma parseInt_decimal (z : Z) : parseInt (decimal z) = Some z.
Proof.
  destruct z as [|p|p]; [reflexivity | ..]; unfold decimal;
    cbn [Z.to_int NilZero.string_of_int];
    pose proof (Unsigned.to_uint_nonnil p) as Hn;
    pose proof (Unsigned.of_to p) as Hv;
    assert (Hs : NilZero.string_of_uint (Pos.to_uint p)
                 = NilEmpty.string_of_uint (Pos.to_uint p))
      by (destruct (Pos.to_uint p); [congruence | reflexivity ..]);
    rewrite Hs.
  - rewrite parseInt_digits, parseDigits_fresh, digitsValue_zero, Hv by exact Hn.
    reflexivity.
  - change (parseInt (String "-" (NilEmpty.string_of_uint (Pos.to_uint p))))
      with (option_map Z.opp
              (parseUnsigned (NilEmpty.string_of_uint (Pos.to_uint p)))).
    rewrite parseUnsigned_digits, parseDigits_fresh, digitsValue_zero, Hv
      by exact Hn.
    reflexivity.
Qed.

(** Text with a fraction or an exponent is read up to the first character
    that is no digit; text without a leading digit is no number. *)
Example parseInt_prefix :
  parseInt "2.5" = Some 2 /\ parseInt "1e3" = Some 1 /\
  parseInt " 42" = Some 42 /\ parseInt "-7" = Some (-7) /\
  parseInt "0x1F" = Some 31 /\
  parseInt "" = None /\ parseInt ".5" = None /\ parseInt "abc" = None.
Proof. concrete. Qed.

Example committed_samples :
  committed WorkField "45" = 45 /\ committed WorkField "99999" = 3600 /\
  committed WorkField "-3" = 1 /\ committed WorkField "0" = 1 /\
  committed TotalField "61" = 60 /\ committed PrepField "11" = 10 /\
  committed RestField "" = 1 /\ committed PrepField "abc" = 1.
Proof. concrete. Qed.

(** * Further properties of the component *)

(** ** What holds in every reachable state *)

Lemma prepTime_step (e : Event) (s : State) :
  Inv s -> 1 <= prepTime s <= 10 -> 1 <= prepTime (step e s) <= 10.
Proof.
  unfold Inv, configInBounds. intros [[Hw [Hr [Ht Hp]]] [Hc [Hs Hi]]] Hpt.
  destruct e as [| | | | |f text|cf value|open].
  1-5: open_state s; destruct iW, iA, iP; rounds; finish.
  - pose proof (committed_bounds f text) as Hb. unfold fieldMin in Hb.
    open_state s; destruct f; cbn [fieldMax] in Hb;
      destruct iW, iA, iP; rounds; finish.
  - open_state s; destruct cf, iW, iA, iP; rounds; finish.
  - open_state s; destruct iW, iA, iP; rounds; finish.
Qed.

(** Whatever the user types and whenever the clock ticks, the four
    durations stay within the bounds of their fields, the preparation
    countdown stays within [1, 10], and a machine that is not active and
    in Work shows the full Work duration. *)
Theorem reachable_configuration (s : State) :
  reachable s ->
  configInBounds s /\
  1 <= prepTime s <= 10 /\
  (isActive s = false -> isWork s = true -> currentTime s = workTime s).
Proof.
  intro Hreach.
  assert (Hpt : 1 <= prepTime s <= 10).
  { induction Hreach as [|s e Hs IH].
    - vm_compute. split; discriminate.
    - apply prepTime_step; [now apply reachable_Inv | exact IH]. }
  pose proof (reachable_Inv s Hreach) as [Hc [_ [_ Hi]]].
  repeat apply conj; try apply Hc; try apply Hpt; exact Hi.
Qed.

Lemma reachable_configuration_witness :
  reachable pausedInRest /\ configInBounds pausedInRest /\
  1 <= prepTime pausedInRest <= 10.
Proof.
  assert (Hreach : reachable pausedInRest).
  { unfold pausedInRest, midRest, started.
    apply reach_step, reachable_run, reachable_run, reach_mount. }
  destruct (reachable_configuration pausedInRest Hreach) as (Hc & Hp & _).
  repeat apply conj; [exact Hreach | apply Hc .. | apply Hp | apply Hp].
Defined.

(** ** The session counter *)

(** Every event has one effect on the session counter.  Reset takes it to
    0.  A session tick of an active machine below the budget adds exactly
    1.  Everything else, a session tick of a stopped machine or at the
    budget included, leaves it as it is. *)
Theorem session_counter_steps (e : Event) (s : State) :
  sessionTime (step e s) =
    if isReset e then 0
    else if isSessionTick e && isActive s
            && (sessionTime s <? totalDuration s * 60)
         then sessionTime s + 1
         else sessionTime s.
Proof.
  destruct e as [| | | | |f text|cf value|open];
    cbn [isReset isSessionTick andb].
  1-5: open_state s; destruct iW, iA, iP; rounds; finish.
  - open_state s; destruct f, iW, iA, iP; rounds; finish.
  - open_state s; destruct cf, iW, iA, iP; rounds; finish.
  - open_state s; destruct iW, iA, iP; rounds; finish.
Qed.

Lemma stopped_session_ticks (n : nat) (s : State) :
  isActive s = false -> run (repeat SessionTick n) s = s.
Proof.
  intro Ha. induction n as [|n IH]; [reflexivity|].
  cbn [repeat run].
  replace (step SessionTick s) with s; [exact IH|].
  open_state s. subst. destruct iW; rounds; finish.
Qed.

(** The session counter saturates at the budget.  From an active state
    within the budget, [n] session ticks leave the counter at the smaller
    of [sessionTime + n] and [totalDuration * 60]; the machine is still
    active exactly when none of the ticks found the budget spent. *)
Theorem session_counter_saturates (n : nat) (s : State) :
  isActive s = true -> sessionTime s <= totalDuration s * 60 ->
  sessionTime (run (repeat SessionTick n) s) =
    Z.min (sessionTime s + Z.of_nat n) (totalDuration s * 60) /\
  isActive (run (repeat SessionTick n) s) =
    (Z.of_nat n <=? totalDuration s * 60 - sessionTime s).
Proof.
  revert s. induction n as [|n IH]; intros s Ha Hb.
  - cbn [repeat run]. rewrite Ha. split; [lia|].
    symmetry. apply Z.leb_le. cbn. lia.
  - cbn [repeat run].
    destruct (Z.ltb_spec0 (sessionTime s) (totalDuration s * 60)) as [Hlt|Hge].
    + rewrite session_tick_increments by assumption.
      destruct (IH (setSessionTime (sessionTime s + 1) s)) as [H1 H2];
        cbn [isActive sessionTime totalDuration setSessionTime]; auto;
        try lia.
      cbn [isActive sessionTime totalDuration setSessionTime] in H1, H2.
      rewrite H1, H2. split; [lia|].
      destruct (Z.leb_spec0 (Z.of_nat n)
                  (totalDuration s * 60 - (sessionTime s + 1)));
        symmetry; [apply Z.leb_le | apply Z.leb_gt]; lia.
    + rewrite session_tick_stops by (auto; lia).
      rewrite stopped_session_ticks by (now destruct (isWork s)).
      replace (sessionTime (if isWork s
                 then setCurrentTime (workTime s) (setIsActive false s)
                 else setIsActive false s)) with (sessionTime s)
        by (now destruct (isWork s)).
      replace (isActive (if isWork s
                 then setCurrentTime (workTime s) (setIsActive false s)
                 else setIsActive false s)) with false
        by (now destruct (isWork s)).
      split; [lia|]. symmetry. apply Z.leb_gt. lia.
Qed.

Lemma session_counter_saturates_witness :
  sessionTime (run (repeat SessionTick 1000) started) = 480 /\
  isActive (run (repeat SessionTick 1000) started) = false.
Proof.
  assert (Hb : sessionTime started <= totalDuration started * 60)
    by (vm_compute; discriminate).
  destruct (session_counter_saturates 1000 started eq_refl Hb) as [H1 H2].
  split; [exact H1 | exact H2].
Defined.

Lemma budget_step (e : Event) (s : State) :
  reopensBudget e = false -> totalDuration s * 60 <= sessionTime s ->
  sessionTime (step e s) = sessionTime s /\
  totalDuration (step e s) = totalDuration s.
Proof.
  intros He Hb.
  destruct e as [| | | | |f text|cf value|open]; try discriminate He.
  1-4: open_state s; destruct iW, iA, iP; rounds; finish.
  - destruct f; try discriminate He;
      open_state s; destruct iW, iA, iP; rounds; finish.
  - open_state s; destruct cf, iW, iA, iP; rounds; finish.
  - open_state s; destruct iW, iA, iP; rounds; finish.
Qed.

(** A spent budget stays spent.  Once the session counter has reached
    [totalDuration * 60], no schedule of events without a reset or a Total
    Duration edit moves the counter, and every session tick that finds the
    machine active again clears [isActive]. *)
Theorem spent_budget_is_final (es : list Event) (s : State) :
  totalDuration s * 60 <= sessionTime s ->
  forallb (fun e => negb (reopensBudget e)) es = true ->
  sessionTime (run es s) = sessionTime s /\
  totalDuration (run es s) = totalDuration s /\
  isActive (step SessionTick (run es s)) = false.
Proof.
  revert s. induction es as [|e es IH]; intros s Hb Hes.
  - cbn [run]. repeat split.
    open_state s. destruct iW, iA; rounds; finish.
  - cbn [forallb] in Hes. apply andb_true_iff in Hes as [He Hes].
    apply negb_true_iff in He.
    destruct (budget_step e s He Hb) as [E1 E2].
    cbn [run].
    destruct (IH (step e s)) as (H1 & H2 & H3); [rewrite E1, E2; exact Hb | exact Hes |].
    repeat split; congruence.
Qed.

Lemma spent_budget_is_final_witness :
  sessionTime
    (run (SessionTick :: Toggle :: ticks PrepTick 3 ++ [PhaseTick; SessionTick])
         budgetSpent) = 60.
Proof.
  assert (Hb : totalDuration budgetSpent * 60 <= sessionTime budgetSpent)
    by (vm_compute; discriminate).
  exact (proj1 (spent_budget_is_final
                  (SessionTick :: Toggle :: ticks PrepTick 3
                     ++ [PhaseTick; SessionTick])
                  budgetSpent Hb eq_refl)).
Defined.

(** With no interval running (neither active nor preparing), the clock
    cannot change anything: every schedule of ticks leaves the state as
    it is. *)
Theorem idle_ignores_clock (es : list Event) (s : State) :
  isActive s = false -> isPreparing s = false ->
  forallb isTick es = true ->
  run es s = s.
Proof.
  intros Ha Hp. induction es as [|e es IH]; intro Hes; [reflexivity|].
  cbn [forallb] in Hes. apply andb_true_iff in Hes as [He Hes].
  destruct (idle_clock_is_still s Ha Hp) as (T1 & T2 & T3).
  cbn [run].
  destruct e; try discriminate He; rewrite ?T1, ?T2, ?T3; now apply IH.
Qed.

Lemma idle_ignores_clock_witness :
  run [PhaseTick; SessionTick; PrepTick; PhaseTick] pausedInRest = pausedInRest.
Proof.
  exact (idle_ignores_clock [PhaseTick; SessionTick; PrepTick; PhaseTick]
           pausedInRest eq_refl eq_refl eq_refl).
Defined.

(** ** Where the countdown stands after any number of seconds *)

(** From an active state at the start of Work, the phase and the countdown
    after [k] phase ticks depend only on [k] modulo the cycle length
    [workTime + restTime]: the first [workTime] seconds of a cycle are
    Work, the others Rest, and the countdown shows what is left of that
    part. *)
Theorem phase_position (k : nat) (s : State) :
  1 <= workTime s -> 1 <= restTime s ->
  isActive s = true -> isWork s = true -> currentTime s = workTime s ->
  let m := Z.of_nat k mod (workTime s + restTime s) in
  run (repeat PhaseTick k) s =
    if m <? workTime s
    then setCurrentTime (workTime s - m) s
    else setCurrentTime (workTime s + restTime s - m) (setIsWork false s).
Proof.
  intros Hw Hr Ha Hk Hc m.
  set (c := workTime s + restTime s) in *.
  assert (Hcpos : 0 < c) by (subst c; lia).
  assert (Hm : 0 <= m < c) by (apply Z.mod_pos_bound; exact Hcpos).
  assert (Ek : k = (Z.to_nat (Z.of_nat k / c) * Z.to_nat c + Z.to_nat m)%nat).
  { pose proof (Z.div_mod (Z.of_nat k) c ltac:(lia)) as D. fold m in D.
    pose proof (Z.div_pos (Z.of_nat k) c ltac:(lia) Hcpos) as Q. nia. }
  rewrite Ek. subst c. rewrite cycles_repeat by assumption.
  destruct (Z.ltb_spec0 m (workTime s)) as [Hlt|Hge].
  - rewrite countdown by (auto; lia). rewrite Z2Nat.id by lia.
    now rewrite Hc.
  - replace (Z.to_nat m)
      with (Z.to_nat (workTime s) + Z.to_nat (m - workTime s))%nat by lia.
    rewrite repeat_app, run_app.
    assert (Hwork : run (repeat PhaseTick (Z.to_nat (workTime s))) s
                    = setCurrentTime (restTime s) (setIsWork false s)).
    { pose proof (phase_runs_out s Ha ltac:(lia)) as P.
      unfold ticks in P. rewrite Hc, Hk in P. exact P. }
    rewrite Hwork.
    rewrite countdown;
      cbn [isActive currentTime setCurrentTime setIsWork]; auto; try lia.
    rewrite Z2Nat.id by lia.
    open_state s. subst. unfold setCurrentTime, setIsWork.
    cbn [workTime restTime totalDuration prepareTime currentTime isWork
         isActive isPreparing prepTime sessionTime workColor restColor
         bgColor textColor showSettings].
    f_equal. lia.
Qed.

Lemma phase_position_witness :
  run (repeat PhaseTick 1000) started = setCurrentTime 20 (setIsWork false started).
Proof.
  assert (Hw : 1 <= workTime started) by (vm_compute; discriminate).
  assert (Hr : 1 <= restTime started) by (vm_compute; discriminate).
  exact (phase_position 1000 started Hw Hr eq_refl eq_refl eq_refl).
Defined.

(** ** Pause, resume and the toggle during preparation *)

Lemma prepare_run (s : State) :
  1 <= prepareTime s -> isActive s = false -> isPreparing s = false ->
  run (Toggle :: ticks PrepTick (prepareTime s)) s =
    setPrepTime (prepareTime s) (setIsActive true s).
Proof.
  intros Hp Ha Hi. cbn [run]. rewrite start_round by assumption.
  set (entered := setPrepTime (prepareTime s) (setIsPreparing true s)).
  unfold ticks.
  replace (Z.to_nat (prepareTime s))
    with (Z.to_nat (prepareTime s - 1) + 1)%nat by lia.
  rewrite repeat_app, run_app.
  rewrite (prep_countdown (Z.to_nat (prepareTime s - 1)) entered)
    by (subst entered; cbn [isPreparing prepTime setPrepTime setIsPreparing];
        auto; lia).
  cbn [repeat run].
  rewrite prep_tick_finishes; subst entered;
    cbn [isPreparing prepTime setPrepTime setIsPreparing]; auto; try lia.
  open_state s. subst. reflexivity.
Qed.

(** Resuming is a full restart of the preparation.  From a running state,
    pause, a second press and [prepareTime] prep ticks lead back to the
    same running state, with [prepTime] rewritten and, when the phase is
    Work, the countdown back at [workTime]; between the second press and
    the last prep tick the machine is preparing, not running. *)
Theorem pause_resume_round_trip (s : State) :
  1 <= prepareTime s -> isActive s = true -> isPreparing s = false ->
  (isPreparing (run [Toggle; Toggle] s) = true /\
   isActive (run [Toggle; Toggle] s) = false) /\
  run ([Toggle; Toggle] ++ ticks PrepTick (prepareTime s)) s =
    setPrepTime (prepareTime s)
      (if isWork s then setCurrentTime (workTime s) s else s).
Proof.
  intros Hp Ha Hi. split.
  - open_state s. subst. destruct iW; cbn [run]; rounds; finish.
  - rewrite run_app. cbn [run]. rewrite (pause_round s Ha).
    destruct (isWork s) eqn:Hw.
    + pose proof (prepare_run (setCurrentTime (workTime s) (setIsActive false s)))
        as R.
      cbn [run prepareTime isActive isPreparing setCurrentTime setIsActive] in R.
      rewrite R by auto.
      open_state s. subst. reflexivity.
    + pose proof (prepare_run (setIsActive false s)) as R.
      cbn [run prepareTime isActive isPreparing setIsActive] in R.
      rewrite R by auto.
      open_state s. subst. reflexivity.
Qed.

Lemma pause_resume_round_trip_witness :
  run ([Toggle; Toggle] ++ ticks PrepTick 3) midRest = midRest.
Proof.
  assert (Hp : 1 <= prepareTime midRest) by (vm_compute; discriminate).
  exact (proj2 (pause_resume_round_trip midRest Hp eq_refl eq_refl)).
Defined.

(** In a reachable state that is preparing and not active, pressing the
    toggle twice changes nothing: the first press sets [isActive], the
    second clears it, and the countdown it re-bases already showed
    [workTime]. *)
Theorem double_toggle_while_preparing (s : State) :
  reachable s -> isPreparing s = true -> isActive s = false ->
  run [Toggle; Toggle] s = s.
Proof.
  intros Hreach Hp Ha.
  pose proof (reachable_Inv s Hreach) as (_ & _ & _ & Hi).
  specialize (Hi Ha).
  open_state s. subst. destruct iW; cbn [run]; rounds; finish.
  f_equal. symmetry. now apply Hi.
Qed.

Lemma double_toggle_while_preparing_witness :
  run [Toggle; Toggle] preparing = preparing.
Proof.
  assert (Hreach : reachable preparing) by apply reach_step, reach_mount.
  exact (double_toggle_while_preparing preparing Hreach eq_refl eq_refl).
Defined.

(** ** Settings edits *)

(** A duration edit never interrupts the timer.  It writes the committed
    value into its own field and leaves the other three durations, the
    flags, the phase, the preparation countdown and the session counter
    alone.  The countdown changes in one case only: a Work Time edit with
    a new value while the machine is not active and in Work. *)
Theorem duration_edit_frame (f : Field) (text : string) (s : State) :
  let s' := step (Edit f text) s in
  (forall g, fieldValue g s' =
             if fieldEqb g f then committed f text else fieldValue g s) /\
  (isActive s' = isActive s /\ isPreparing s' = isPreparing s /\
   isWork s' = isWork s /\ prepTime s' = prepTime s /\
   sessionTime s' = sessionTime s) /\
  currentTime s' =
    (if fieldEqb f WorkField && negb (isActive s) && isWork s
        && negb (committed f text =? workTime s)
     then committed f text else currentTime s).
Proof.
  change (step (Edit f text) s)
    with (update (fieldSetter f (committed f text)) s).
  generalize (committed f text). intros v s'. subst s'.
  repeat apply conj; try intro g;
    open_state s; destruct f; try destruct g; destruct iW, iA;
    cbn [fieldEqb]; rounds; finish.
Qed.

Lemma presentational_round (p : Event) (s : State) :
  isPresentational p = true -> step p s = handle p s.
Proof.
  intro Hp. destruct p as [| | | | |f text|cf value|open]; try discriminate Hp.
  - open_state s; destruct cf, iW, iA; rounds; reflexivity.
  - open_state s; destruct iW, iA; rounds; reflexivity.
Qed.

Lemma presentational_commutes (p e : Event) (s : State) :
  isPresentational p = true -> isPresentational e = false ->
  step e (handle p s) = handle p (step e s).
Proof.
  intros Hp He.
  destruct p as [| | | | |f text|cf value|open]; try discriminate Hp;
    destruct e as [| | | | |g text'|cg value'|open']; try discriminate He;
    try (change (step (Edit g text') ?x)
           with (update (fieldSetter g (committed g text')) x);
         generalize (committed g text'); intro v; destruct g);
    try destruct cf; cbn [handle colorSetter];
    open_state s; destruct iW, iA, iP; rounds; reflexivity.
Qed.

(** Colour edits and the dialog flag are independent of the timer.  Such
    an event leaves all ten timer cells as they are, stores a colour text
    exactly as given, and commutes with every timer event and duration
    edit: it does not matter on which side of a tick or a button press it
    happens. *)
Theorem presentation_is_independent (p e : Event) (s : State) :
  isPresentational p = true -> isPresentational e = false ->
  timerCells (step p s) = timerCells s /\
  step e (step p s) = step p (step e s) /\
  (forall c value, p = EditColor c value ->
     colorValue c (step p s) = value).
Proof.
  intros Hp He.
  rewrite (presentational_round p s), (presentational_round p (step e s))
    by assumption.
  repeat apply conj.
  - destruct p as [| | | | |f text|cf value|open]; try discriminate Hp;
      [destruct cf|]; now destruct s.
  - now apply presentational_commutes.
  - intros c value E. subst p. destruct c; now destruct s.
Qed.

Lemma presentation_is_independent_witness :
  step PhaseTick (step (EditColor WorkColor "teal") midWork) =
  step (EditColor WorkColor "teal") (step PhaseTick midWork).
Proof.
  exact (proj1 (proj2 (presentation_is_independent
                         (EditColor WorkColor "teal") PhaseTick midWork
                         eq_refl eq_refl))).
Defined.

(** An integer within the bounds of a field is committed unchanged when
    its decimal text is entered, and so the value a field shows can be
    entered again without changing it. *)
Theorem in_range_commits_unchanged (f : Field) (v : Z) :
  fieldMin f <= v <= fieldMax f ->
  committed f (decimal v) = v /\
  (forall text, committed f (decimal (committed f text)) = committed f text).
Proof.
  assert (Hin : forall u, fieldMin f <= u <= fieldMax f ->
                          committed f (decimal u) = u).
  { intros u Hu. unfold committed, newValue, orDefault.
    rewrite parseInt_decimal. unfold fieldMin in *.
    destruct (Z.eqb_spec u 0); destruct f; cbn [fieldMax] in *; lia. }
  intro Hv. split; [now apply Hin|].
  intro text. apply Hin, committed_bounds.
Qed.

Lemma in_range_commits_unchanged_witness :
  committed TotalField (decimal 45) = 45.
Proof.
  assert (H : fieldMin TotalField <= 45 <= fieldMax TotalField)
    by (split; vm_compute; discriminate).
  exact (proj1 (in_range_commits_unchanged TotalField 45 H)).
Defined.

(** ** Text after the digits *)

Lemma parseDigits_seen_app (d : uint) (acc : Z) (tail : string) :
  parseDigits 10 true acc (NilEmpty.string_of_uint d ++ tail) =
  parseDigits 10 true (digitsValue acc d) tail.
Proof.
  revert acc. induction d; intro acc;
    cbn [NilEmpty.string_of_uint digitsValue append];
    [reflexivity | ..];
    (etransitivity; [|apply IHd]); reflexivity.
Qed.

Lemma parseDigits_fresh_app (d : uint) (tail : string) :
  d <> Nil ->
  parseDigits 10 false 0 (NilEmpty.string_of_uint d ++ tail) =
  parseDigits 10 true (digitsValue 0 d) tail.
Proof.
  destruct d; [congruence | ..]; intros _;
    cbn [NilEmpty.string_of_uint digitsValue append];
    (etransitivity; [|apply parseDigits_seen_app]); reflexivity.
Qed.

Lemma parseDigits_stops (acc : Z) (c : ascii) (rest : string) :
  digitValue 10 c = None ->
  parseDigits 10 true acc (String c rest) = Some acc.
Proof.
  intro Hc. cbn [parseDigits]. now rewrite Hc.
Qed.

(** The text of a positive number does not begin with a zero. *)
Lemma to_uint_head (p : positive) :
  match Pos.to_uint p with
  | Nil | D0 _ => False
  | _ => True
  end.
Proof.
  pose proof (Unsigned.to_of (Pos.to_uint p)) as H.
  rewrite Unsigned.of_to in H. cbn [N.to_uint] in H.
  pose proof (Unsigned.to_uint_nonnil p) as Hn.
  pose proof (DecimalFacts.nzhead_nonzero (Pos.to_uint p)) as Hz.
  unfold unorm in H.
  destruct (nzhead (Pos.to_uint p)) eqn:E;
    rewrite H in *; try exact I.
  - now apply (Unsigned.to_uint_nonzero p).
  - now apply (Hz u).
Qed.

Lemma parseInt_positive_app (p : positive) (tail : string) :
  parseInt (NilEmpty.string_of_uint (Pos.to_uint p) ++ tail) =
  parseDigits 10 true (Z.pos p) tail /\
  parseUnsigned (NilEmpty.string_of_uint (Pos.to_uint p) ++ tail) =
  parseDigits 10 true (Z.pos p) tail.
Proof.
  pose proof (to_uint_head p) as Hh.
  pose proof (Unsigned.of_to p) as Hv.
  assert (Hval : digitsValue 0 (Pos.to_uint p) = Z.pos p)
    by (now rewrite digitsValue_zero, Hv).
  assert (Hn : Pos.to_uint p <> Nil) by apply Unsigned.to_uint_nonnil.
  rewrite <- Hval, <- (parseDigits_fresh_app _ tail Hn).
  destruct (Pos.to_uint p); try contradiction; split; reflexivity.
Qed.

(** [parseInt] stops at the first character that is no digit. *)
Lemma parseInt_decimal_app (v : Z) (c : ascii) (rest : string) :
  digitValue 10 c = None -> c <> "x"%char -> c <> "X"%char ->
  parseInt (decimal v ++ String c rest) = Some v.
Proof.
  intros Hc Hx HX.
  destruct v as [|p|p]; unfold decimal; cbn [Z.to_int NilZero.string_of_int].
  - assert (Hu : parseUnsigned (String "0" (String c rest))
                 = parseDigits 10 false 0 (String "0" (String c rest))).
    { destruct c as [[] [] [] [] [] [] [] []]; try reflexivity;
        congruence. }
    change (parseUnsigned (String "0" (String c rest)) = Some 0).
    rewrite Hu.
    change (parseDigits 10 false 0 (String "0" (String c rest)))
      with (parseDigits 10 true 0 (String c rest)).
    now apply parseDigits_stops.
  - assert (Hs : NilZero.string_of_uint (Pos.to_uint p)
                 = NilEmpty.string_of_uint (Pos.to_uint p))
      by (destruct (Pos.to_uint p) eqn:E;
          [now apply Unsigned.to_uint_nonnil in E | reflexivity ..]).
    rewrite Hs, (proj1 (parseInt_positive_app p _)).
    now apply parseDigits_stops.
  - assert (Hs : NilZero.string_of_uint (Pos.to_uint p)
                 = NilEmpty.string_of_uint (Pos.to_uint p))
      by (destruct (Pos.to_uint p) eqn:E;
          [now apply Unsigned.to_uint_nonnil in E | reflexivity ..]).
    rewrite Hs.
    change (parseInt (String "-" (NilEmpty.string_of_uint (Pos.to_uint p))
                      ++ String c rest))
      with (option_map Z.opp
              (parseUnsigned (NilEmpty.string_of_uint (Pos.to_uint p)
                              ++ String c rest))).
    rewrite (proj2 (parseInt_positive_app p _)), parseDigits_stops by exact Hc.
    reflexivity.
Qed.

(** Whatever follows the digits of an integer is ignored by a duration
    field: a decimal point and fraction, an exponent, a unit.  The text
    commits as the integer in front of it (so ["2.5"] commits as 2 and
    ["1e3"] as 1).  The letters [x] and [X] are left out because after a
    single [0] they announce hexadecimal digits. *)
Theorem text_after_digits_is_ignored
  (f : Field) (v : Z) (c : ascii) (rest : string) :
  digitValue 10 c = None -> c <> "x"%char -> c <> "X"%char ->
  committed f (decimal v ++ String c rest) = committed f (decimal v).
Proof.
  intros Hc Hx HX. unfold committed, newValue.
  now rewrite parseInt_decimal_app, parseInt_decimal.
Qed.

Lemma text_after_digits_is_ignored_witness :
  committed WorkField "90.75" = committed WorkField "90".
Proof.
  assert (Hx : "."%char <> "x"%char) by discriminate.
  assert (HX : "."%char <> "X"%char) by discriminate.
  exact (text_after_digits_is_ignored WorkField 90 "." "75" eq_refl Hx HX).
Defined.

(** ** The time display *)

Lemma two_digits (x : Z) :
  0 <= x < 60 ->
  padStart 2 "0" (decimal x) =
    String (digitChar (x / 10)) (String (digitChar (x mod 10)) EmptyString) /\
  parseInt (padStart 2 "0" (decimal x)) = Some x.
Proof.
  intro Hx. rewrite <- (Z2Nat.id x) by lia.
  assert (Hn : (Z.to_nat x < 60)%nat) by lia.
  clear Hx. generalize dependent (Z.to_nat x). clear x. intros n Hn.
  do 60 (destruct n as [|n]; [split; reflexivity|]). lia.
Qed.

Lemma length_append (p q : string) :
  String.length (p ++ q) = (String.length p + String.length q)%nat.
Proof.
  induction p as [|a p IH]; cbn [append String.length]; [reflexivity|].
  now rewrite IH.
Qed.

Lemma append_inj_tail (p q t u : string) :
  String.length t = String.length u -> p ++ t = q ++ u -> p = q /\ t = u.
Proof.
  intro Hlen. revert q.
  induction p as [|a p IH]; intros [|b q] H; cbn [append] in H.
  - now split.
  - exfalso. rewrite H in Hlen. cbn [String.length] in Hlen.
    rewrite length_append in Hlen. lia.
  - exfalso. rewrite <- H in Hlen. cbn [String.length] in Hlen.
    rewrite length_append in Hlen. lia.
  - injection H as Ha Hrest. destruct (IH q Hrest) as [E1 E2].
    split; congruence.
Qed.

(** For a time that is not negative, the display is the minutes in
    decimal, a colon, and the seconds of the minute in exactly two digits;
    a whole number of minutes ends in [":00"]. *)
Theorem formatTime_shape (seconds : Z) :
  0 <= seconds ->
  formatTime seconds =
    decimal (seconds / 60) ++ ":" ++
    String (digitChar (seconds mod 60 / 10))
      (String (digitChar (seconds mod 60 mod 10)) EmptyString) /\
  String.length (formatTime seconds) =
    (String.length (decimal (seconds / 60)) + 3)%nat /\
  formatTime (seconds * 60) = decimal seconds ++ ":00".
Proof.
  intro Hs.
  assert (Hm : 0 <= seconds mod 60 < 60) by (apply Z.mod_pos_bound; lia).
  assert (E : formatTime seconds =
              decimal (seconds / 60) ++ ":" ++
              String (digitChar (seconds mod 60 / 10))
                (String (digitChar (seconds mod 60 mod 10)) EmptyString)).
  { unfold formatTime. cbv zeta. rewrite Z.rem_mod_nonneg by lia.
    now rewrite (proj1 (two_digits _ Hm)). }
  repeat apply conj.
  - exact E.
  - rewrite E, length_append. reflexivity.
  - unfold formatTime. cbv zeta.
    rewrite Z.rem_mod_nonneg, Z.div_mul, Z.mod_mul by lia. reflexivity.
Qed.

Lemma formatTime_shape_witness :
  formatTime 125 = "2:05" /\ formatTime (8 * 60) = "8:00".
Proof.
  assert (H125 : 0 <= 125) by discriminate.
  assert (H8 : 0 <= 8) by discriminate.
  split.
  - exact (proj1 (formatTime_shape 125 H125)).
  - exact (proj2 (proj2 (formatTime_shape 8 H8))).
Defined.

(** Two different times that are not negative never show the same
    text. *)
Theorem formatTime_injective (a b : Z) :
  0 <= a -> 0 <= b -> formatTime a = formatTime b -> a = b.
Proof.
  intros Ha Hb H. unfold formatTime in H. cbv zeta in H.
  rewrite !Z.rem_mod_nonneg in H by lia.
  assert (Hma : 0 <= a mod 60 < 60) by (apply Z.mod_pos_bound; lia).
  assert (Hmb : 0 <= b mod 60 < 60) by (apply Z.mod_pos_bound; lia).
  destruct (two_digits _ Hma) as [Sa Ra].
  destruct (two_digits _ Hmb) as [Sb Rb].
  apply append_inj_tail in H as [Hmins Hsecs].
  - assert (Em : a / 60 = b / 60).
    { pose proof (parseInt_decimal (a / 60)) as Pa.
      rewrite Hmins, parseInt_decimal in Pa. congruence. }
    assert (Er : a mod 60 = b mod 60).
    { injection Hsecs as Hs. rewrite Hs in Ra. congruence. }
    rewrite (Z.div_mod a 60), (Z.div_mod b 60) by lia. congruence.
  - cbn [append String.length]. now rewrite Sa, Sb.
Qed.

Lemma formatTime_injective_witness :
  formatTime 59 <> formatTime 60.
Proof.
  intro H.
  assert (H59 : 0 <= 59) by discriminate.
  assert (H60 : 0 <= 60) by discriminate.
  pose proof (formatTime_injective 59 60 H59 H60 H) as E.
  discriminate E.
Defined.

(** In every reachable state the header shows the session counter as at
    most 60 minutes with two-digit seconds, then the budget as a whole
    number of minutes between 1 and 60 followed by [":00"]. *)
Theorem header_of_reachable (s : State) :
  reachable s ->
  header s =
    decimal (sessionTime s / 60) ++ ":" ++
    String (digitChar (sessionTime s mod 60 / 10))
      (String (digitChar (sessionTime s mod 60 mod 10)) EmptyString)
    ++ " / " ++ decimal (totalDuration s) ++ ":00" /\
  0 <= sessionTime s / 60 <= 60 /\
  1 <= totalDuration s <= 60.
Proof.
  intro Hreach.
  pose proof (reachable_Inv s Hreach) as [[_ [_ [Ht _]]] [_ [Hs _]]].
  assert (E1 : formatTime (sessionTime s) =
               decimal (sessionTime s / 60) ++ ":" ++
               String (digitChar (sessionTime s mod 60 / 10))
                 (String (digitChar (sessionTime s mod 60 mod 10)) EmptyString)).
  { unfold formatTime. cbv zeta. rewrite Z.rem_mod_nonneg by lia.
    assert (Hm : 0 <= sessionTime s mod 60 < 60)
      by (apply Z.mod_pos_bound; lia).
    now rewrite (proj1 (two_digits _ Hm)). }
  assert (E2 : formatTime (totalDuration s * 60) =
               decimal (totalDuration s) ++ ":00").
  { unfold formatTime. cbv zeta.
    rewrite Z.rem_mod_nonneg, Z.div_mul, Z.mod_mul by lia. reflexivity. }
  repeat apply conj; try lia.
  - unfold header. rewrite E1, E2.
    generalize (decimal (sessionTime s / 60)). intro mins.
    induction mins as [|a mins IH]; cbn [append]; [reflexivity|].
    f_equal. exact IH.
  - apply Z.div_pos; lia.
  - apply Z.div_le_upper_bound; lia.
Qed.

Lemma header_of_reachable_witness :
  reachable midWork /\ header midWork = "0:05 / 8:00".
Proof.
  assert (Hreach : reachable midWork).
  { unfold midWork, started. apply reachable_run, reachable_run, reach_mount. }
  split; [exact Hreach | exact (proj1 (header_of_reachable midWork Hreach))].
Defined.

(** ** The length of a preparation *)

(** A preparation always runs out.  In any preparing state with at least
    1 on the preparation countdown, that many prep ticks end it, whatever
    [isActive] was: [isPreparing] is cleared, [isActive] is set, the
    countdown of the phase is untouched and [prepTime] is rewritten to
    [prepareTime].  In a reachable state this takes at most 10 ticks. *)
Theorem preparation_ends (s : State) :
  isPreparing s = true -> 1 <= prepTime s ->
  run (ticks PrepTick (prepTime s)) s =
    setPrepTime (prepareTime s) (setIsActive true (setIsPreparing false s)) /\
  (forall k, 0 <= k < prepTime s ->
     isPreparing (run (ticks PrepTick k) s) = true) /\
  (reachable s -> prepTime s <= 10).
Proof.
  intros Hp Hc. repeat apply conj.
  - unfold ticks.
    replace (Z.to_nat (prepTime s))
      with (Z.to_nat (prepTime s - 1) + 1)%nat by lia.
    rewrite repeat_app, run_app.
    rewrite (prep_countdown (Z.to_nat (prepTime s - 1)) s) by (auto; lia).
    cbn [repeat run].
    rewrite prep_tick_finishes;
      cbn [isPreparing prepTime setPrepTime]; auto; lia.
  - intros k Hk. unfold ticks. rewrite prep_countdown; auto; lia.
  - intro Hreach.
    assert (Hpt : 1 <= prepTime s <= 10).
    { clear Hp Hc. induction Hreach as [|s e Hs IH].
      - vm_compute. split; discriminate.
      - apply prepTime_step; [now apply reachable_Inv | exact IH]. }
    lia.
Qed.

Lemma preparation_ends_witness :
  run (ticks PrepTick 3) (step Toggle preparing) =
    setPrepTime 3 (setIsActive true (setIsPreparing false (step Toggle preparing))).
Proof.
  assert (Hc : 1 <= prepTime (step Toggle preparing))
    by (vm_compute; discriminate).
  exact (proj1 (preparation_ends (step Toggle preparing) eq_refl Hc)).
Defined.

(** ** What a duration field commits *)




